(** * Relation Engine API v2: the [query_results] handler

    A shallow embedding of [run_query] from
    [relation_engine_server/api_modules/api_v2.py] and the properties of
    its request preamble, its dispatch order and the database calls it
    issues.

    The handler is Python code over parsed JSON, a Flask request and a
    handful of collaborators ([parse_json], [auth], [spec_loader],
    [jinja2], [arango_client]).  JSON values are an inductive type with
    dictionaries as finite maps, the collaborators are the fields of an
    environment record, and the handler itself runs in a small
    state-and-exception monad whose state is the database together with
    the log of the calls made to it. *)

From Stdlib Require Import ZArith Ascii String Floats.SpecFloat.
From stdpp Require Import gmap strings list fin_maps pretty.

Set Warnings "-register-all".
Local Open Scope Z_scope.

(** ** Python values *)

(** What [json.loads] can produce: [None], booleans, integers, floats,
    strings, lists and dictionaries with string keys. *)
Inductive value : Type :=
  | VNone
  | VBool (b : bool)
  | VInt (n : Z)
  | VFloat (f : spec_float)
  | VStr (s : string)
  | VList (l : list value)
  | VDict (d : gmap string value).

(** Exceptions.  The first group are Python built-ins raised by the
    operators below, [InvalidParameters] is the one exception the handler
    raises itself, and the last group is the error taxonomy of the
    collaborators. *)
Inductive exn : Type :=
  | TypeError
  | KeyError (key : string)
  | ValueError
  | AttributeError
  | InvalidParameters (msg : string)
  | AuthError
  | PermissionError
  | NotFoundError (name : string)
  | RenderError (detail : string)
  | CursorNotFoundError (detail : string)
  | UpstreamQueryError (detail : string).

(** A fallible computation without side effects: an exception or a result. *)
Definition res (A : Type) : Type := exn + A.

Definition ok {A} (a : A) : res A := inr a.
Definition throw {A} (e : exn) : res A := inl e.

(** Truth value of a Python object, as tested by [or]. *)
Definition py_truthy (v : value) : bool :=
  match v with
  | VNone => false
  | VBool b => b
  | VInt n => negb (n =? 0)
  | VFloat (S754_zero _) => false
  | VFloat _ => true
  | VStr s => negb (String.eqb s "")
  | VList l => match l with [] => false | _ => true end
  | VDict d => negb (Nat.eqb (size d) 0)
  end.

(** [a or b] *)
Definition py_or (a b : value) : value := if py_truthy a then a else b.

(** [needle] occurs in [s] as a contiguous substring. *)
Fixpoint is_substring (needle s : string) : bool :=
  String.prefix needle s ||
  match s with
  | EmptyString => false
  | String _ s' => is_substring needle s'
  end.

(** [key in container] for a string [key]: key membership in a dictionary,
    element membership in a list, substring test in a string, [TypeError]
    on everything else. *)
Definition py_contains (key : string) (container : value) : res bool :=
  match container with
  | VDict d => ok (bool_decide (is_Some (d !! key)))
  | VList l =>
      ok (existsb (fun x => match x with VStr s => String.eqb key s | _ => false end) l)
  | VStr s => ok (is_substring key s)
  | _ => throw TypeError
  end.

(** [container[key]] for a string [key]. *)
Definition py_getitem (container : value) (key : string) : res value :=
  match container with
  | VDict d => match d !! key with Some v => ok v | None => throw (KeyError key) end
  | _ => throw TypeError
  end.

(** [container[key] = v] for a string [key]; the result is the container
    after the assignment. *)
Definition py_setitem (container : value) (key : string) (v : value) : res value :=
  match container with
  | VDict d => ok (VDict (<[key := v]> d))
  | _ => throw TypeError
  end.

(** [container[k1][k2] = v].  The inner object is the one stored under
    [k1], not a copy, so the assignment is visible through [container]. *)
Definition py_setitem_nested (container : value) (k1 k2 : string) (v : value)
  : res value :=
  match py_getitem container k1 with
  | inl e => throw e
  | inr inner =>
      match py_setitem inner k2 v with
      | inl e => throw e
      | inr inner' =>
          match container with
          | VDict d => ok (VDict (<[k1 := inner']> d))
          | _ => throw TypeError
          end
      end
  end.

(** [container.get(key, dflt)]: a dictionary method. *)
Definition py_get (container : value) (key : string) (dflt : value) : res value :=
  match container with
  | VDict d => ok (default dflt (d !! key))
  | _ => throw AttributeError
  end.

(** [**mapping] in a call: the keyword arguments of a dictionary. *)
Definition py_kwargs (mapping : value) : res (gmap string value) :=
  match mapping with
  | VDict d => ok d
  | _ => throw TypeError
  end.

(** ** The request and the collaborators *)

(** The parts of [flask.request] the handler and its collaborators read:
    the query-string arguments in the order they were sent, the
    [Authorization] header and the parsed body. *)
Record Request : Type := {
  args : list (string * string);
  authorization : option string;
  body : option value;
}.

(** [flask.request.args.get(key)]: the first value sent under [key]. *)
Fixpoint args_get (a : list (string * string)) (key : string) : option string :=
  match a with
  | [] => None
  | (k, v) :: rest => if String.eqb k key then Some v else args_get rest key
  end.

(** [key in flask.request.args] *)
Definition args_contains (a : list (string * string)) (key : string) : bool :=
  match args_get a key with Some _ => true | None => false end.

(** [flask.request.args[key]] *)
Definition args_getitem (a : list (string * string)) (key : string) : res string :=
  match args_get a key with Some v => ok v | None => throw (KeyError key) end.

(** The keyword arguments of one call of [arango_client.run_query]: the
    handler calls it either with a query text, bind variables and a batch
    size, or with a cursor id alone. *)
Inductive arango_args : Type :=
  | Query_kwargs (query_text : value) (bind_vars : value) (batch_size : Z)
  | Cursor_kwargs (cursor_id : string).

(** A compiled [jinja2] template: its [render] method. *)
Record Template : Type := { render : gmap string value -> res string }.

(** Everything [run_query] calls that lives outside [api_v2.py].  [DB] is
    the state of the database behind [arango_client]. *)
Record Env (DB : Type) : Type := {
  (** [parse_json.get_json_body()] *)
  get_json_body : Request -> res value;
  (** [auth.get_auth_header()] *)
  get_auth_header : Request -> res (option string);
  (** [auth.get_workspace_ids(auth_token)] *)
  get_workspace_ids : option string -> res (list Z);
  (** [auth.require_auth_token(roles=...)] *)
  require_auth_token : list string -> Request -> res unit;
  (** [spec_loader.get_view(view_name)] *)
  get_view : string -> res string;
  (** [jinja2.Environment(...).from_string(view_str)] *)
  from_string : string -> res Template;
  (** [int(s)] on a string, [None] where Python raises [ValueError] *)
  int_of_str : string -> option Z;
  (** [arango_client.run_query] with the given keyword arguments *)
  arango_run_query : arango_args -> DB -> res value * DB;
}.

Arguments get_json_body {DB} _ _.
Arguments get_auth_header {DB} _ _.
Arguments get_workspace_ids {DB} _ _.
Arguments require_auth_token {DB} _ _ _.
Arguments get_view {DB} _ _.
Arguments from_string {DB} _ _.
Arguments int_of_str {DB} _ _.
Arguments arango_run_query {DB} _ _ _.

(** ** The handler monad *)

(** The state a request runs in: the database, and the calls made to it
    so far, oldest first. *)
Record World (DB : Type) : Type := {
  db : DB;
  calls : list arango_args;
}.

Arguments Build_World {DB} _ _.
Arguments db {DB} _.
Arguments calls {DB} _.

(** A handler step: it reads and updates the world and ends in an
    exception or a result. *)
Definition M (DB A : Type) : Type := World DB -> res A * World DB.

Definition ret {DB A} (a : A) : M DB A := fun w => (inr a, w).

Definition raise {DB A} (e : exn) : M DB A := fun w => (inl e, w).

Definition bind {DB A B} (m : M DB A) (k : A -> M DB B) : M DB B :=
  fun w =>
    match m w with
    | (inl e, w') => (inl e, w')
    | (inr a, w') => k a w'
    end.

(** A pure fallible step. *)
Definition lift {DB A} (r : res A) : M DB A := fun w => (r, w).

Declare Scope handler_scope.
Delimit Scope handler_scope with handler.
Notation "x <- m ;; k" := (bind m (fun x => k))
  (at level 100, m at next level, right associativity) : handler_scope.
Notation "m ;;; k" := (bind m (fun _ => k))
  (at level 100, right associativity) : handler_scope.

Section Handler.
Context {DB : Type} (env : Env DB).

(** One call of [arango_client.run_query]: it is logged, then answered
    by the database. *)
Definition arango_client_run_query (kw : arango_args) : M DB value :=
  fun w =>
    let '(r, db') := arango_run_query env kw (db w) in
    (r, {| db := db'; calls := calls w ++ [kw] |}).

(** [int(flask.request.args.get('batch_size', 100))] *)
Definition read_batch_size (req : Request) : res Z :=
  match args_get (args req) "batch_size" with
  | None => ok 100
  | Some s =>
      match int_of_str env s with
      | Some n => ok n
      | None => throw ValueError
      end
  end.

(** [api_v2.run_query].  The numbers are the lines of [api_v2.py]. *)
Definition run_query (req : Request) : M DB value :=
  ((* 17 *) body <- lift (get_json_body env req);;
   let json_body := py_or body (VDict ∅) in
   (* 18 *) has_bind_vars <- lift (py_contains "bind_vars" json_body);;
   (* 19 *) json_body <- lift (if negb has_bind_vars
                               then py_setitem json_body "bind_vars" (VDict ∅)
                               else ok json_body);;
   (* 21 *) json_body <- lift (py_setitem_nested json_body "bind_vars" "ws_ids" (VList []));;
   (* 22 *) auth_token <- lift (get_auth_header env req);;
   (* 24 *) ws_ids <- lift (get_workspace_ids env auth_token);;
   json_body <- lift (py_setitem_nested json_body "bind_vars" "ws_ids"
                        (VList (VInt <$> ws_ids)));;
   (* 26 *) batch_size <- lift (read_batch_size req);;
   (* 27 *) has_query <- lift (py_contains "query" json_body);;
   if has_query : bool then
     (* 29 *) lift (require_auth_token env ["RE_ADMIN"%string] req);;;
     (* 30 *) query_text <- lift (py_getitem json_body "query");;
     (* 31 *) bind_vars <- lift (py_getitem json_body "bind_vars");;
     arango_client_run_query (Query_kwargs query_text bind_vars batch_size)
   else (* 35 *) if args_contains (args req) "view" then
     (* 37 *) view_name <- lift (args_getitem (args req) "view");;
     (* 38 *) view_str <- lift (get_view env view_name);;
     (* 39 *) templ <- lift (from_string env view_str);;
     (* 40 *) template_vars <- lift (py_get json_body "template_vars" (VDict ∅));;
     kwargs <- lift (py_kwargs template_vars);;
     compiled_query <- lift (render templ kwargs);;
     (* 41 *) bind_vars <- lift (py_getitem json_body "bind_vars");;
     arango_client_run_query (Query_kwargs (VStr compiled_query) bind_vars batch_size)
   else (* 45 *) if args_contains (args req) "cursor_id" then
     (* 47 *) cursor_id <- lift (args_getitem (args req) "cursor_id");;
     (* 48 *) arango_client_run_query (Cursor_kwargs cursor_id)
   else
     (* 51 *) raise (InvalidParameters "Pass in a view or a cursor_id"))%handler.

End Handler.

(** ** The collaborators as the specification describes them *)

(** *** Auth Gateway *)

(** Modelled from the spec: the identity service behind [auth] is not part
    of [api_v2.py].  A caller identity carries the roles of a token and the
    resource IDs it may read; the gateway knows the tokens it accepts. *)
Record CallerIdentity : Type := {
  roles : list string;
  authorized_resource_ids : list Z;
}.

(** Modelled from the spec: [auth.get_auth_header] is missing; the header
    is [Authorization: Bearer <token>], and a bare token is read as it is. *)
Definition spec_get_auth_header (req : Request) : res (option string) :=
  ok ((fun h => if String.prefix "Bearer " h
                then String.substring 7 (String.length h - 7) h
                else h) <$> authorization req).

(** Modelled from the spec: [auth.get_workspace_ids] is missing.  An absent
    token yields the empty sequence, a rejected token fails with
    [AuthError], an accepted one yields its authorized resource IDs. *)
Definition spec_get_workspace_ids (gw : gmap string CallerIdentity)
    (auth_token : option string) : res (list Z) :=
  match auth_token with
  | None => ok []
  | Some t =>
      match gw !! t with
      | None => throw AuthError
      | Some who => ok (authorized_resource_ids who)
      end
  end.

(** Modelled from the spec: [auth.require_auth_token] is missing.  An
    absent or rejected token fails with [AuthError]; an accepted token
    that does not carry the required roles fails with [PermissionError]. *)
Definition spec_require_auth_token (gw : gmap string CallerIdentity)
    (required : list string) (req : Request) : res unit :=
  match spec_get_auth_header req with
  | inl e => throw e
  | inr None => throw AuthError
  | inr (Some t) =>
      match gw !! t with
      | None => throw AuthError
      | Some who =>
          if forallb (fun r => bool_decide (r ∈ roles who)) required
          then ok tt
          else throw PermissionError
      end
  end.

(** *** Spec repository *)

(** Modelled from the spec: [spec_loader.get_view] is missing.  The
    repository maps a view name to its template source; an unknown name
    fails with [NotFoundError] for that name. *)
Definition spec_get_view (views : gmap string string) (view_name : string)
  : res string :=
  match views !! view_name with
  | Some src => ok src
  | None => throw (NotFoundError view_name)
  end.

(** Modelled from the spec: [parse_json.get_json_body] is missing.  It
    hands over the parsed body, [None] when the request has none. *)
Definition spec_get_json_body (req : Request) : res value :=
  ok (default VNone (body req)).

(** *** Database cursor engine *)

(** Modelled from the spec: [arango_client.run_query] and the database
    behind it are missing.  A cursor is the part of a result set not yet
    handed out, with the total count and the batch size of its query. *)
Record Cursor : Type := {
  remaining : list value;
  total : Z;
  page_size : Z;
}.

(** The cursors that are alive, and the number of cursor ids handed out so
    far; ids are the decimal numerals of that counter and never reused. *)
Record Database : Type := {
  cursors : gmap string Cursor;
  next_id : nat;
}.

(** The Result Page. *)
Definition result_page (results : list value) (count : Z) (cursor_id : option string)
  : value :=
  VDict (<["results" := VList results]>
        (<["count" := VInt count]>
        (<["has_more" := VBool (bool_decide (is_Some cursor_id))]>
        (<["cursor_id" := from_option VStr VNone cursor_id]> ∅)))).

Section Engine.
(** What a query text matches under given bind variables, or the
    database's complaint about them. *)
Variable eval_query : value -> value -> res (list value).

(** Start a new query with a batch size. *)
Definition start_query (query_text bind_vars : value) (batch_size : Z)
    (d : Database) : res value * Database :=
  match eval_query query_text bind_vars with
  | inl e => (throw e, d)
  | inr docs =>
      let count := Z.of_nat (length docs) in
      let page := take (Z.to_nat batch_size) docs in
      match drop (Z.to_nat batch_size) docs with
      | [] => (ok (result_page page count None), d)
      | rest =>
          let id := pretty (next_id d) in
          (ok (result_page page count (Some id)),
           {| cursors := <[id := {| remaining := rest; total := count;
                                    page_size := batch_size |}]> (cursors d);
              next_id := S (next_id d) |})
      end
  end.

(** Advance an existing cursor.  An unknown or expired id fails with
    [CursorNotFoundError] and the upstream detail; the cursor that hands
    out its last page is destroyed. *)
Definition advance_cursor (cursor_id : string) (d : Database)
    : res value * Database :=
  match cursors d !! cursor_id with
  | None => (throw (CursorNotFoundError "cursor not found"), d)
  | Some c =>
      let page := take (Z.to_nat (page_size c)) (remaining c) in
      match drop (Z.to_nat (page_size c)) (remaining c) with
      | [] => (ok (result_page page (total c) None),
               {| cursors := delete cursor_id (cursors d); next_id := next_id d |})
      | rest => (ok (result_page page (total c) (Some cursor_id)),
                 {| cursors := <[cursor_id := {| remaining := rest; total := total c;
                                                 page_size := page_size c |}]> (cursors d);
                    next_id := next_id d |})
      end
  end.

Definition spec_arango_run_query (kw : arango_args) (d : Database)
    : res value * Database :=
  match kw with
  | Query_kwargs query_text bind_vars batch_size =>
      start_query query_text bind_vars batch_size d
  | Cursor_kwargs cursor_id => advance_cursor cursor_id d
  end.
End Engine.

(** *** Response boundary *)

(** What the HTTP layer sends back. *)
Inductive Response : Type :=
  | Success (payload : value)
  | ErrorPayload (payload : gmap string value)
  | TransportError (status : Z)
  | ServerCrash.

(** Modelled from the spec: the error handlers of the server are missing.
    Authentication failures become a transport-level status, the errors of
    the taxonomy become a structured error object, and any other exception
    is a 500-class crash.  Where the specification fixes no text for the
    classification, the object carries the name of the error. *)
Definition format_response (r : res value) : Response :=
  match r with
  | inr page => Success page
  | inl AuthError => TransportError 403
  | inl PermissionError => TransportError 403
  | inl (InvalidParameters msg) => ErrorPayload {[ "error" := VStr msg ]}
  | inl (NotFoundError name) =>
      ErrorPayload (<["error" := VStr "View does not exist."]> {[ "name" := VStr name ]})
  | inl (RenderError detail) =>
      ErrorPayload (<["error" := VStr "RenderError"]> {[ "detail" := VStr detail ]})
  | inl (CursorNotFoundError detail) =>
      ErrorPayload (<["error" := VStr "CursorNotFoundError"]>
                      {[ "arango_message" := VStr detail ]})
  | inl (UpstreamQueryError detail) =>
      ErrorPayload (<["error" := VStr "UpstreamQueryError"]>
                      {[ "arango_message" := VStr detail ]})
  | inl _ => ServerCrash
  end.

(** The environment assembled from these parts.  The template engine,
    [int] and the query evaluator stay parameters. *)
Definition spec_env (gw : gmap string CallerIdentity) (views : gmap string string)
    (jinja : string -> res Template) (int : string -> option Z)
    (eval_query : value -> value -> res (list value)) : Env Database :=
  {| get_json_body := spec_get_json_body;
     get_auth_header := spec_get_auth_header;
     get_workspace_ids := spec_get_workspace_ids gw;
     require_auth_token := spec_require_auth_token gw;
     get_view := spec_get_view views;
     from_string := jinja;
     int_of_str := int;
     arango_run_query := spec_arango_run_query eval_query |}.

(** ** A test environment *)

(** The setting of [test_api_v2.py]: a mock gateway with an administrator
    and a plain user, one stored view, and a [test_vertex] collection. *)
Module Fixture.

Definition gateway : gmap string CallerIdentity :=
  <["admin_token" := {| roles := ["RE_ADMIN"%string]; authorized_resource_ids := [99] |}]>
  (<["valid_token" := {| roles := []; authorized_resource_ids := [1; 2; 3] |}]> ∅).

Definition list_test_vertices_aql : string :=
  "for o in test_vertex filter o.is_public || o.ws_id IN @ws_ids return o".

Definition views : gmap string string :=
  <["list_test_vertices" := list_test_vertices_aql]> ∅.

(** A template without placeholders renders to its own source. *)
Definition verbatim (src : string) : res Template :=
  ok {| render := fun _ => ok src |}.

Definition digit_of (c : ascii) : option Z :=
  let n := Z.of_N (N_of_ascii c) - 48 in
  if (0 <=? n) && (n <=? 9) then Some n else None.

Fixpoint digits_value (s : string) (acc : Z) : option Z :=
  match s with
  | EmptyString => Some acc
  | String c s' =>
      match digit_of c with
      | Some d => digits_value s' (10 * acc + d)
      | None => None
      end
  end.

(** [int] on plain decimal numerals with an optional sign. *)
Definition decimal_int (s : string) : option Z :=
  match s with
  | EmptyString => None
  | String "-" (String _ _ as s') => Z.opp <$> digits_value s' 0
  | String "+" (String _ _ as s') => digits_value s' 0
  | _ => digits_value s 0
  end.

Definition vertex (key : string) (ws_id : Z) : value :=
  VDict (<["_key" := VStr key]> (<["ws_id" := VInt ws_id]> ∅)).

Definition visible_to (ws_ids : list value) (doc : value) : bool :=
  match doc with
  | VDict d =>
      match d !! "ws_id" with
      | Some (VInt n) =>
          existsb (fun v => match v with VInt m => n =? m | _ => false end) ws_ids
      | _ => false
      end
  | _ => false
  end.

(** Every query is the stored one: the vertices whose [ws_id] is among
    the bound [ws_ids]. *)
Definition eval_query (docs : list value) (query_text bind_vars : value)
  : res (list value) :=
  match bind_vars with
  | VDict bv =>
      match bv !! "ws_ids" with
      | Some (VList ids) => ok (List.filter (visible_to ids) docs)
      | _ => throw (UpstreamQueryError "no value specified for declared bind parameter")
      end
  | _ => throw (UpstreamQueryError "expecting object for bindVars")
  end.

Definition test_vertex : list value :=
  [vertex "1" 3; vertex "2" 99; vertex "3" 3; vertex "4" 2; vertex "5" 9999].

Definition env : Env Database :=
  spec_env gateway views verbatim decimal_int (eval_query test_vertex).

Definition fresh_world : World Database :=
  {| db := {| cursors := ∅; next_id := 0%nat |}; calls := [] |}.

(** [requests.post(url, params=..., headers={'Authorization': ...}, data=...)] *)
Definition post (params : list (string * string)) (token : option string)
    (data : option value) : Request :=
  {| args := params; authorization := token; body := data |}.

(** The requests of the tests, and a few of their neighbours. *)

Definition caller_ws_ids (ids : list Z) : value :=
  VDict (<["bind_vars" := VDict (<["ws_ids" := VList (VInt <$> ids)]> ∅)]> ∅).

(** [test_query_cannot_pass_ws_ids], with a batch size. *)
Definition view_request : Request :=
  post [("view", "list_test_vertices"); ("batch_size", "2")]%string
       (Some "valid_token"%string) (Some (caller_ws_ids [99])).


Definition adhoc_body (ids : list Z) : value :=
  VDict (<["query" := VStr list_test_vertices_aql]>
        (<["bind_vars" := VDict (<["ws_ids" := VList (VInt <$> ids)]> ∅)]> ∅)).

(** [test_auth_adhoc_query], with [ws_ids] of the administrator's own. *)
Definition adhoc_request : Request :=
  post [] (Some "admin_token"%string) (Some (adhoc_body [3])).



(** [test_query_no_name] *)
Definition unknown_view_request : Request :=
  post [("view", "nonexistent")]%string None None.

(** An ad-hoc query of the administrator that also names an unknown view. *)
Definition unknown_view_adhoc : Request :=
  post [("view", "nonexistent")]%string (Some "admin_token"%string) (Some (adhoc_body [])).

(** A cursor continuation, as in [test_query_with_cursor]. *)
Definition cursor_request (cursor_id : string) (data : option value) : Request :=
  post [("cursor_id", cursor_id)] (Some "valid_token"%string) data.

(** A view request whose batch size is no number. *)
Definition bad_batch_request : Request :=
  post [("view", "list_test_vertices"); ("batch_size", "abc")]%string
       (Some "valid_token"%string) None.

(** ... from a caller whose token the gateway rejects, as in
    [test_auth_query_invalid_token]. *)
Definition bad_batch_invalid_token : Request :=
  post [("view", "list_test_vertices"); ("batch_size", "abc")]%string
       (Some "invalid_token"%string) None.


(** The world after the first page of [view_request] has been served. *)
Definition world_after_first_page : World Database :=
  (run_query env view_request fresh_world).2.

(** More requests: bodies that are no objects, odd bind variables and
    template variables, and keys the handler does not know. *)

Definition list_body_request : Request :=
  post [("view", "list_test_vertices")]%string (Some "valid_token"%string)
       (Some (VList [VStr "bind_vars"])).

Definition null_bind_vars_request : Request :=
  post [("view", "list_test_vertices"); ("batch_size", "abc")]%string
       (Some "invalid_token"%string) (Some (VDict (<["bind_vars" := VNone]> ∅))).

Definition view_no_body : Request :=
  post [("view", "list_test_vertices")]%string (Some "valid_token"%string) None.

Definition view_zero_body : Request :=
  post [("view", "list_test_vertices")]%string (Some "valid_token"%string)
       (Some (VInt 0)).

Definition cursor_rejected_token : Request :=
  post [("cursor_id", "0")]%string (Some "invalid_token"%string) None.

Definition list_template_vars_request : Request :=
  post [("view", "list_test_vertices")]%string (Some "valid_token"%string)
       (Some (VDict (<["template_vars" := VList [VInt 1]]> ∅))).

Definition cursor_with_batch_size : Request :=
  post [("batch_size", "7"); ("cursor_id", "0"); ("extra", "1")]%string
       (Some "admin_token"%string) (Some (caller_ws_ids [5])).

Definition view_request_extra_keys : Request :=
  post [("view", "list_test_vertices"); ("batch_size", "2")]%string
       (Some "valid_token"%string)
       (Some (VDict (<["bind_vars" := VDict (<["ws_ids" := VList [VInt 99]]> ∅)]>
                    (<["collection" := VStr "test_vertex"]>
                    (<["limit" := VInt 1]> ∅))))).

Definition view_request_named_bind_var : Request :=
  post [("view", "list_test_vertices")]%string (Some "valid_token"%string)
       (Some (VDict (<["bind_vars" := VDict (<["xyz" := VStr "test_vertex"]> ∅)]> ∅))).

End Fixture.


(** ** What the preamble establishes *)

(** The bind variables of a body: an absent key stands for the empty
    dictionary the handler puts there, anything but a dictionary cannot be
    assigned into. *)
Definition bind_vars_of (d : gmap string value) : option (gmap string value) :=
  match d !! "bind_vars" with
  | None => Some ∅
  | Some (VDict bv) => Some bv
  | Some _ => None
  end.

(** What a request has become when the handler reaches its dispatch: the
    body as a dictionary, the caller's bind variables, the resource IDs the
    gateway resolved, and the batch size. *)
Record Prepared : Type := {
  p_body : gmap string value;
  p_bind_vars : gmap string value;
  p_ids : list Z;
  p_batch_size : Z;
}.

Section Preamble.
Context {DB : Type} (env : Env DB).

(** Lines 17 to 24 succeed: the body is a dictionary with usable bind
    variables and the gateway resolves the caller's token. *)
Definition bound (req : Request) (d bv : gmap string value) (ids : list Z) : Prop :=
  (∃ body, get_json_body env req = ok body ∧ py_or body (VDict ∅) = VDict d) ∧
  bind_vars_of d = Some bv ∧
  (∃ auth_token, get_auth_header env req = ok auth_token ∧
                 get_workspace_ids env auth_token = ok ids).

(** ... and on line 26 the batch size reads as an integer. *)
Definition prepared (req : Request) (p : Prepared) : Prop :=
  bound req (p_body p) (p_bind_vars p) (p_ids p) ∧
  read_batch_size env req = ok (p_batch_size p).

(** The bind variables the handler hands to the database. *)
Definition effective_bind_vars (p : Prepared) : value :=
  VDict (<["ws_ids" := VList (VInt <$> p_ids p)]> (p_bind_vars p)).

(** The branch a prepared request takes, by what it carries. *)
Definition dispatch (req : Request) (p : Prepared) : M DB value :=
  match p_body p !! "query" with
  | Some query_text =>
      (lift (require_auth_token env ["RE_ADMIN"%string] req);;;
       arango_client_run_query env
         (Query_kwargs query_text (effective_bind_vars p) (p_batch_size p)))%handler
  | None =>
      match args_get (args req) "view" with
      | Some view_name =>
          (view_str <- lift (get_view env view_name);;
           templ <- lift (from_string env view_str);;
           kwargs <- lift (py_kwargs (default (VDict ∅) (p_body p !! "template_vars")));;
           compiled_query <- lift (render templ kwargs);;
           arango_client_run_query env
             (Query_kwargs (VStr compiled_query) (effective_bind_vars p)
                (p_batch_size p)))%handler
      | None =>
          match args_get (args req) "cursor_id" with
          | Some cursor_id => arango_client_run_query env (Cursor_kwargs cursor_id)
          | None => raise (InvalidParameters "Pass in a view or a cursor_id")
          end
      end
  end.

(** How a call the handler makes relates to the prepared request. *)
Definition call_of (req : Request) (p : Prepared) (kw : arango_args) : Prop :=
  match kw with
  | Query_kwargs query_text bind_vars batch_size =>
      bind_vars = effective_bind_vars p ∧ batch_size = p_batch_size p ∧
      (p_body p !! "query" = Some query_text ∨
       p_body p !! "query" = None ∧ is_Some (args_get (args req) "view"))
  | Cursor_kwargs cursor_id =>
      p_body p !! "query" = None ∧ args_get (args req) "view" = None ∧
      args_get (args req) "cursor_id" = Some cursor_id
  end.

(** The body of the request is a dictionary with a [query] key. *)
Definition body_has_query (req : Request) : Prop :=
  ∃ body d, get_json_body env req = ok body ∧ py_or body (VDict ∅) = VDict d ∧
            is_Some (d !! "query").

(** The calls a request adds to the log. *)
Definition issued (req : Request) (w : World DB) : list arango_args :=
  drop (length (calls w)) (calls (run_query env req w).2).

(** Serving requests one after the other. *)
Definition serve (reqs : list Request) (w : World DB) : World DB :=
  foldl (fun w req => (run_query env req w).2) w reqs.

End Preamble.

(** ** Cursor bookkeeping *)

(** Every live cursor carries an id the counter has handed out. *)
Definition cursors_issued (d : Database) : Prop :=
  map_Forall (fun cursor_id _ => cursor_id ∈ (pretty <$> seq 0 (next_id d))) (cursors d).

#[global] Instance cursors_issued_dec (d : Database) : Decision (cursors_issued d).
Proof. unfold cursors_issued. apply _. Defined.

(** An id that was handed out and whose cursor is gone. *)
Definition retired (cursor_id : string) (d : Database) : Prop :=
  cursor_id ∈ (pretty <$> seq 0 (next_id d)) ∧ cursors d !! cursor_id = None.

(** The [has_more] flag and the [cursor_id] of a Result Page. *)
Definition page_has_more (page : value) : option value :=
  match page with VDict d => d !! "has_more" | _ => None end.

Definition page_cursor_id (page : value) : option value :=
  match page with VDict d => d !! "cursor_id" | _ => None end.

(** A page that reports its cursor exhausted. *)
Definition exhausted (page : value) : Prop :=
  page_has_more page = Some (VBool false) ∧ page_cursor_id page = Some VNone.

(** ** The preamble as a function *)

Section PreambleFunction.
Context {DB : Type} (env : Env DB).

(** Lines 17 to 26 in one piece: the prepared request, or the exception
    the preamble ends in.  A body that is no dictionary, and bind variables
    that are none, end in [TypeError] on line 18, 19 or 21. *)
Definition preamble (req : Request) : res Prepared :=
  match get_json_body env req with
  | inl e => throw e
  | inr body =>
      match py_or body (VDict ∅) with
      | VDict d =>
          match bind_vars_of d with
          | None => throw TypeError
          | Some bv =>
              match get_auth_header env req with
              | inl e => throw e
              | inr auth_token =>
                  match get_workspace_ids env auth_token with
                  | inl e => throw e
                  | inr ids =>
                      match read_batch_size env req with
                      | inl e => throw e
                      | inr n => ok {| p_body := d; p_bind_vars := bv;
                                       p_ids := ids; p_batch_size := n |}
                      end
                  end
              end
          end
      | _ => throw TypeError
      end
  end.

(** The same environment with another role check. *)
Definition with_role_check (check : list string -> Request -> res unit) : Env DB :=
  {| get_json_body := get_json_body env;
     get_auth_header := get_auth_header env;
     get_workspace_ids := get_workspace_ids env;
     require_auth_token := check;
     get_view := get_view env;
     from_string := from_string env;
     int_of_str := int_of_str env;
     arango_run_query := arango_run_query env |}.

End PreambleFunction.

(** ** Evaluation in the test environment *)

(** Closes a goal over concrete requests by running the handler. *)
Ltac by_evaluation := vm_compute; reflexivity.

(** A request of the test environment is prepared: every component of
    [prepared] is found by evaluation. *)
Ltac prepared_by_evaluation :=
  split; [split; [eexists; split; by_evaluation |
                  split; [by_evaluation | eexists; split; by_evaluation]] |
          by_evaluation].

(** ** Reasoning about the handler *)

Lemma bind_lift {DB A B} (r : res A) (k : A -> M DB B) (w : World DB) :
  bind (lift r) k w = match r with inl e => (inl e, w) | inr a => k a w end.
Proof. unfold bind, lift. by destruct r. Qed.

(** The two assignments to [ws_ids], seen from outside. *)
Lemma py_setitem_nested_dict (d inner : gmap string value) (k1 k2 : string) (v : value) :
  d !! k1 = Some (VDict inner) ->
  py_setitem_nested (VDict d) k1 k2 v = ok (VDict (<[k1 := VDict (<[k2 := v]> inner)]> d)).
Proof. intros H. unfold py_setitem_nested. simpl. by rewrite H. Qed.

Section Reasoning.
Context {DB : Type} (env : Env DB).

(** Once the body is bound, the handler reads the batch size and
    dispatches. *)
Lemma run_query_bound req d bv ids w :
  bound env req d bv ids ->
  run_query env req w =
    match read_batch_size env req with
    | inl e => (inl e, w)
    | inr n => dispatch env req {| p_body := d; p_bind_vars := bv; p_ids := ids;
                               p_batch_size := n |} w
    end.
Proof.
  intros [(body & Hbody & Hor) [Hbv (tok & Htok & Hids)]].
  unfold run_query. rewrite bind_lift, Hbody. unfold ok. rewrite Hor.
  rewrite bind_lift. cbn [py_contains ok].
  unfold bind_vars_of in Hbv.
  set (d0 := if bool_decide (is_Some (d !! "bind_vars"))
             then d else <["bind_vars" := VDict ∅]> d).
  assert (Hd0 : d0 !! "bind_vars" = Some (VDict bv)).
  { subst d0. destruct (d !! "bind_vars") as [[| | | | | |bv']|] eqn:Hl;
      try discriminate; simplify_eq.
    - rewrite bool_decide_true by eauto. done.
    - rewrite bool_decide_false by (by intros [? ?]). by rewrite lookup_insert_eq. }
  assert (Hq : ∀ k, k ≠ "bind_vars"%string -> d0 !! k = d !! k).
  { intros k Hk. subst d0. case_bool_decide; [done|]. by rewrite lookup_insert_ne. }
  rewrite bind_lift.
  replace (if negb (bool_decide (is_Some (d !! "bind_vars")))
           then py_setitem (VDict d) "bind_vars" (VDict ∅) else inr (VDict d))
    with (@inr exn _ (VDict d0)) by (subst d0; by case_bool_decide).
  rewrite bind_lift, (py_setitem_nested_dict _ bv) by done. unfold ok.
  rewrite bind_lift, Htok. unfold ok. rewrite bind_lift, Hids. unfold ok.
  rewrite bind_lift, (py_setitem_nested_dict _ (<["ws_ids":=VList []]> bv))
    by apply lookup_insert_eq.
  unfold ok. rewrite !insert_insert_eq.
  rewrite bind_lift.
  destruct (read_batch_size env req) as [e|n]; [done|].
  rewrite bind_lift. cbn [py_contains ok].
  unfold dispatch, effective_bind_vars; simpl.
  rewrite lookup_insert_ne, Hq by done.
  destruct (d !! "query") as [q|] eqn:Hquery.
  - rewrite bool_decide_true by eauto.
    unfold bind, lift.
    destruct (require_auth_token env ["RE_ADMIN"%string] req) as [e|[]]; [done|].
    unfold ok. by rewrite lookup_insert_eq.
  - rewrite bool_decide_false by (by intros [? ?]).
    unfold args_contains, args_getitem.
    destruct (args_get (args req) "view") as [view_name|].
    + rewrite !bind_lift. unfold ok.
      destruct (get_view env view_name) as [e|view_str]; [done|].
      rewrite !bind_lift.
      destruct (from_string env view_str) as [e|templ]; [done|].
      rewrite !bind_lift. cbn [py_get ok].
      rewrite lookup_insert_ne, Hq by done.
      destruct (py_kwargs _) as [e|kwargs]; [done|].
      rewrite !bind_lift.
      destruct (render templ kwargs) as [e|compiled]; [done|].
      rewrite bind_lift. cbn [py_getitem]. by rewrite lookup_insert_eq.
    + destruct (args_get (args req) "cursor_id") as [cursor_id|]; [|done].
      by rewrite bind_lift.
Qed.

Lemma run_query_prepared req p w :
  prepared env req p -> run_query env req w = dispatch env req p w.
Proof.
  destruct p as [d bv ids n]. intros [Hb Hn]; simpl in *.
  by rewrite (run_query_bound _ _ _ _ _ Hb), Hn.
Qed.

(** A request that is not bound fails before anything is dispatched. *)
Lemma run_query_fails_or_bound req w :
  (∃ e, run_query env req w = (inl e, w)) ∨ (∃ d bv ids, bound env req d bv ids).
Proof.
  unfold run_query, bound. rewrite bind_lift.
  destruct (get_json_body env req) as [e|body] eqn:Hbody; [by eauto|].
  rewrite bind_lift.
  destruct (py_or body (VDict ∅)) as [| | | |s|l|d] eqn:Hor; cbn [py_contains];
    try (by eauto).
  - (* a string *)
    left. unfold ok. rewrite bind_lift. destruct (is_substring _ _); simpl; eauto.
  - (* a list *)
    left. unfold ok. rewrite bind_lift. destruct (existsb _ _); simpl; eauto.
  - unfold ok. rewrite bind_lift.
    assert (Hstep :
      (if negb (bool_decide (is_Some (d !! "bind_vars")))
       then py_setitem (VDict d) "bind_vars" (VDict ∅) else ok (VDict d)) =
      ok (VDict (if bool_decide (is_Some (d !! "bind_vars"))
                 then d else <["bind_vars" := VDict ∅]> d)))
      by (by case_bool_decide).
    unfold ok in Hstep. rewrite Hstep. clear Hstep. unfold ok. rewrite bind_lift.
    set (d0 := if bool_decide (is_Some (d !! "bind_vars"))
               then d else <["bind_vars" := VDict ∅]> d).
    destruct (bind_vars_of d) as [bv|] eqn:Hbv.
    + assert (Hd0 : d0 !! "bind_vars" = Some (VDict bv)).
      { subst d0. unfold bind_vars_of in Hbv.
        destruct (d !! "bind_vars") as [[| | | | | |bv']|] eqn:Hl;
          try discriminate; simplify_eq.
        - rewrite bool_decide_true by eauto. done.
        - rewrite bool_decide_false by (by intros [? ?]). by rewrite lookup_insert_eq. }
      rewrite (py_setitem_nested_dict _ bv) by done. unfold ok.
      rewrite bind_lift.
      destruct (get_auth_header env req) as [e|tok] eqn:Htok; [by eauto|].
      rewrite bind_lift.
      destruct (get_workspace_ids env tok) as [e|ids] eqn:Hids; [by eauto|].
      right. exists d, bv, ids. eauto 10.
    + left. unfold bind_vars_of in Hbv.
      destruct (d !! "bind_vars") as [v|] eqn:Hl; [|discriminate].
      subst d0. rewrite bool_decide_true by eauto.
      unfold py_setitem_nested. cbn [py_getitem]. rewrite Hl.
      destruct v; try discriminate; simpl; eauto.
Qed.

Lemma bound_unique req d bv ids d' bv' ids' :
  bound env req d bv ids -> bound env req d' bv' ids' ->
  d = d' ∧ bv = bv' ∧ ids = ids'.
Proof.
  intros [(body & Hb & Hor) [Hbv (tok & Htok & Hids)]]
         [(body' & Hb' & Hor') [Hbv' (tok' & Htok' & Hids')]].
  rewrite Hb in Hb'. injection Hb' as <-.
  rewrite Hor in Hor'. injection Hor' as <-.
  rewrite Hbv in Hbv'. injection Hbv' as <-.
  rewrite Htok in Htok'. injection Htok' as <-.
  rewrite Hids in Hids'. by injection Hids' as <-.
Qed.

Lemma prepared_unique req p p' :
  prepared env req p -> prepared env req p' -> p = p'.
Proof.
  destruct p as [d bv ids n], p' as [d' bv' ids' n']; simpl.
  intros [Hb Hn] [Hb' Hn']; simpl in *.
  destruct (bound_unique _ _ _ _ _ _ _ Hb Hb') as (-> & -> & ->).
  rewrite Hn in Hn'. by injection Hn' as <-.
Qed.

(** A dispatch ends in an exception before the database is reached, or in
    exactly one call whose answer is the handler's answer. *)
Lemma dispatch_outcome req p w :
  (∃ e, dispatch env req p w = (inl e, w)) ∨
  (∃ kw, dispatch env req p w = arango_client_run_query env kw w ∧ call_of req p kw).
Proof.
  unfold dispatch.
  destruct (p_body p !! "query") as [q|] eqn:Hquery.
  - rewrite bind_lift.
    destruct (require_auth_token env ["RE_ADMIN"%string] req) as [e|[]]; [by eauto|].
    right. eexists. split; [done|]. simpl. auto.
  - destruct (args_get (args req) "view") as [view_name|] eqn:Hview.
    + rewrite bind_lift.
      destruct (get_view env view_name) as [e|view_str]; [by eauto|].
      rewrite bind_lift.
      destruct (from_string env view_str) as [e|templ]; [by eauto|].
      rewrite bind_lift.
      destruct (py_kwargs _) as [e|kwargs]; [by eauto|].
      rewrite bind_lift.
      destruct (render templ kwargs) as [e|compiled]; [by eauto|].
      right. eexists. split; [done|]. simpl. rewrite Hview. eauto.
    + destruct (args_get (args req) "cursor_id") as [cursor_id|] eqn:Hcursor.
      * right. eexists. split; [done|]. by simpl.
      * left. by eexists.
Qed.

Lemma run_query_outcome req w :
  (∃ e, run_query env req w = (inl e, w)) ∨
  (∃ p kw, prepared env req p ∧ call_of req p kw ∧
           run_query env req w = arango_client_run_query env kw w).
Proof.
  destruct (run_query_fails_or_bound req w) as [Hfail | (d & bv & ids & Hb)]; [by left|].
  rewrite (run_query_bound _ _ _ _ _ Hb).
  destruct (read_batch_size env req) as [e|n] eqn:Hn; [by eauto|].
  set (p := {| p_body := d; p_bind_vars := bv; p_ids := ids; p_batch_size := n |}).
  destruct (dispatch_outcome req p w) as [Hfail | (kw & Hrun & Hcall)]; [by left|].
  right. exists p, kw. split; [split; [exact Hb | exact Hn] | by split].
Qed.

Lemma arango_client_calls kw w :
  calls (arango_client_run_query env kw w).2 = calls w ++ [kw].
Proof. unfold arango_client_run_query. by destruct (arango_run_query env kw (db w)). Qed.

Lemma arango_client_db kw w :
  db (arango_client_run_query env kw w).2 = (arango_run_query env kw (db w)).2.
Proof. unfold arango_client_run_query. by destruct (arango_run_query env kw (db w)). Qed.

Lemma arango_client_result kw w :
  (arango_client_run_query env kw w).1 = (arango_run_query env kw (db w)).1.
Proof. unfold arango_client_run_query. by destruct (arango_run_query env kw (db w)). Qed.

Lemma issued_failed req w e : run_query env req w = (inl e, w) -> issued env req w = [].
Proof. intros H. unfold issued. rewrite H. simpl. apply drop_all. Qed.

Lemma issued_call req w kw :
  run_query env req w = arango_client_run_query env kw w -> issued env req w = [kw].
Proof.
  intros H. unfold issued. rewrite H, arango_client_calls.
  by rewrite drop_app_length.
Qed.

(** A logged call comes from a prepared request and is the only one. *)
Lemma issued_inv req w kw :
  kw ∈ issued env req w ->
  ∃ p, prepared env req p ∧ call_of req p kw ∧ issued env req w = [kw] ∧
       run_query env req w = arango_client_run_query env kw w.
Proof.
  intros Hin.
  destruct (run_query_outcome req w) as [[e He] | (p & kw' & Hp & Hcall & Hrun)].
  - rewrite (issued_failed _ _ _ He) in Hin. by apply elem_of_nil in Hin.
  - rewrite (issued_call _ _ _ Hrun) in Hin. apply list_elem_of_singleton in Hin as ->.
    exists p. split; [done|]. split; [done|]. split; [by apply issued_call | done].
Qed.

Lemma calls_issued req w :
  calls (run_query env req w).2 = calls w ++ issued env req w.
Proof.
  destruct (run_query_outcome req w) as [[e He] | (p & kw & _ & _ & Hrun)].
  - rewrite (issued_failed _ _ _ He), He. simpl. by rewrite app_nil_r.
  - by rewrite (issued_call _ _ _ Hrun), Hrun, arango_client_calls.
Qed.

End Reasoning.

(** ** The tests, replayed *)

(** [test_query_with_cursor]: a first page with more to come. *)
Example first_page_has_more :
  (run_query Fixture.env Fixture.view_request Fixture.fresh_world).1 =
  inr (result_page [Fixture.vertex "1" 3; Fixture.vertex "3" 3] 3 (Some "0"%string)).
Proof. by_evaluation. Qed.

(** ... and the last page, fetched by cursor. *)
Example last_page_by_cursor :
  (run_query Fixture.env (Fixture.cursor_request "0" None)
     Fixture.world_after_first_page).1 =
  inr (result_page [Fixture.vertex "4" 2] 3 None).
Proof. by_evaluation. Qed.

(** [test_auth_query_invalid_token]: status 403. *)
Example rejected_token_is_403 :
  format_response
    (run_query Fixture.env
       (Fixture.post [("view", "list_test_vertices")]%string
          (Some "invalid_token"%string) None)
       Fixture.fresh_world).1 = TransportError 403.
Proof. by_evaluation. Qed.

(** [test_auth_adhoc_query]: the administrator's query counts the vertex
    of workspace 99. *)
Example adhoc_query_counts_one :
  (run_query Fixture.env Fixture.adhoc_request Fixture.fresh_world).1 =
  inr (result_page [Fixture.vertex "2" 99] 1 None).
Proof. by_evaluation. Qed.

(** ** Database calls per request *)

(** C8: every request issues at most one database call, in failing
    executions too, and a request that succeeds has issued exactly one
    (a new query with a batch size, or the advance of a cursor). *)
Theorem at_most_one_database_call {DB} (env : Env DB) (req : Request) (w : World DB) :
  calls (run_query env req w).2 = calls w ++ issued env req w ∧
  (length (issued env req w) ≤ 1)%nat ∧
  (∀ page, (run_query env req w).1 = inr page -> length (issued env req w) = 1%nat).
Proof.
  split; [apply calls_issued|].
  destruct (run_query_outcome env req w) as [[e He] | (p & kw & _ & _ & Hrun)].
  - rewrite (issued_failed _ _ _ _ He), He. simpl. split; [lia | discriminate].
  - rewrite (issued_call _ _ _ _ Hrun). simpl. split; [lia | done].
Qed.

(** ** Batch size *)

(** C9: a query the handler starts (ad-hoc or from a view) carries batch
    size 100 when the request has no [batch_size] argument, and the
    integer the argument reads as when it has one. *)
Theorem batch_size_default_100 {DB} (env : Env DB) (req : Request) (w : World DB)
    (query_text bind_vars : value) (batch_size : Z) :
  Query_kwargs query_text bind_vars batch_size ∈ issued env req w ->
  match args_get (args req) "batch_size" with
  | None => batch_size = 100
  | Some s => int_of_str env s = Some batch_size
  end.
Proof.
  intros Hin.
  destruct (issued_inv env req w _ Hin) as (p & [_ Hn] & (_ & -> & _) & _).
  unfold read_batch_size in Hn.
  destruct (args_get (args req) "batch_size") as [s|].
  - destruct (int_of_str env s); [by injection Hn as -> | discriminate].
  - by injection Hn.
Qed.

Lemma batch_size_default_100_witness :
  (Query_kwargs (VStr Fixture.list_test_vertices_aql)
     (VDict {[ "ws_ids" := VList [VInt 99] ]}) 100
     ∈ issued Fixture.env Fixture.adhoc_request Fixture.fresh_world ∧ 100 = 100) ∧
  (Query_kwargs (VStr Fixture.list_test_vertices_aql)
     (VDict {[ "ws_ids" := VList [VInt 1; VInt 2; VInt 3] ]}) 2
     ∈ issued Fixture.env Fixture.view_request Fixture.fresh_world ∧
   Fixture.decimal_int "2" = Some 2).
Proof.
  assert (H1 : Query_kwargs (VStr Fixture.list_test_vertices_aql)
     (VDict {[ "ws_ids" := VList [VInt 99] ]}) 100
     ∈ issued Fixture.env Fixture.adhoc_request Fixture.fresh_world).
  { replace (issued Fixture.env Fixture.adhoc_request Fixture.fresh_world)
      with [Query_kwargs (VStr Fixture.list_test_vertices_aql)
              (VDict {[ "ws_ids" := VList [VInt 99] ]}) 100] by by_evaluation.
    apply list_elem_of_here. }
  assert (H2 : Query_kwargs (VStr Fixture.list_test_vertices_aql)
     (VDict {[ "ws_ids" := VList [VInt 1; VInt 2; VInt 3] ]}) 2
     ∈ issued Fixture.env Fixture.view_request Fixture.fresh_world).
  { replace (issued Fixture.env Fixture.view_request Fixture.fresh_world)
      with [Query_kwargs (VStr Fixture.list_test_vertices_aql)
              (VDict {[ "ws_ids" := VList [VInt 1; VInt 2; VInt 3] ]}) 2] by by_evaluation.
    apply list_elem_of_here. }
  split; (split; [assumption|]).
  - exact (batch_size_default_100 Fixture.env Fixture.adhoc_request _ _ _ _ H1).
  - exact (batch_size_default_100 Fixture.env Fixture.view_request _ _ _ _ H2).
Defined.

(** ** The authorized resource IDs *)




(** C2 fails as stated: the administrator of the tests sends [ws_ids = [3]]
    with an ad-hoc query, and the database receives the IDs the gateway
    resolved for the token, [[99]]. *)
Lemma adhoc_query_ws_ids_overwritten_example :
  let caller_bind_vars : gmap string value := {[ "ws_ids" := VList [VInt 3] ]} in
  let sent : gmap string value := {[ "ws_ids" := VList [VInt 99] ]} in
  Fixture.adhoc_request =
    Fixture.post [] (Some "admin_token"%string)
      (Some (VDict (<["query" := VStr Fixture.list_test_vertices_aql]>
                   (<["bind_vars" := VDict caller_bind_vars]> ∅)))) ∧
  issued Fixture.env Fixture.adhoc_request Fixture.fresh_world =
    [Query_kwargs (VStr Fixture.list_test_vertices_aql) (VDict sent) 100] ∧
  sent !! "ws_ids" ≠ caller_bind_vars !! "ws_ids".
Proof.
  intros caller_bind_vars sent. split; [by_evaluation|]. split; [by_evaluation|].
  subst caller_bind_vars sent. rewrite !lookup_singleton_eq. discriminate.
Qed.

(** C2, amended: the ad-hoc path gets the same overwrite as the other
    paths.  The one call of an administrator's ad-hoc query carries the
    query text of the body, and bind variables that hold the gateway's
    resolution under [ws_ids] and the caller's values under every other
    key. *)
Theorem adhoc_query_ws_ids_overwritten {DB} (env : Env DB) (req : Request)
    (p : Prepared) (query_text : value) (w : World DB) :
  prepared env req p ->
  p_body p !! "query" = Some query_text ->
  require_auth_token env ["RE_ADMIN"%string] req = ok tt ->
  ∃ bv,
    issued env req w = [Query_kwargs query_text (VDict bv) (p_batch_size p)] ∧
    bv !! "ws_ids" = Some (VList (VInt <$> p_ids p)) ∧
    (∀ k, k ≠ "ws_ids"%string -> bv !! k = p_bind_vars p !! k).
Proof.
  intros Hp Hquery Hadmin. eexists. split; [|split].
  - apply issued_call. rewrite (run_query_prepared env req p w Hp).
    unfold dispatch. rewrite Hquery, bind_lift, Hadmin. reflexivity.
  - apply lookup_insert_eq.
  - intros k Hk. by rewrite lookup_insert_ne.
Qed.

Lemma adhoc_query_ws_ids_overwritten_witness :
  let p := {| p_body := <["query" := VStr Fixture.list_test_vertices_aql]>
                        (<["bind_vars" := VDict {[ "ws_ids" := VList [VInt 3] ]}]> ∅);
              p_bind_vars := {[ "ws_ids" := VList [VInt 3] ]};
              p_ids := [99]; p_batch_size := 100 |} in
  prepared Fixture.env Fixture.adhoc_request p ∧
  p_body p !! "query" = Some (VStr Fixture.list_test_vertices_aql) ∧
  require_auth_token Fixture.env ["RE_ADMIN"%string] Fixture.adhoc_request = ok tt ∧
  ∃ bv,
    issued Fixture.env Fixture.adhoc_request Fixture.fresh_world =
      [Query_kwargs (VStr Fixture.list_test_vertices_aql) (VDict bv) 100] ∧
    bv !! "ws_ids" = Some (VList [VInt 99]) ∧
    (∀ k, k ≠ "ws_ids"%string -> bv !! k = p_bind_vars p !! k).
Proof.
  intros p.
  assert (Hp : prepared Fixture.env Fixture.adhoc_request p) by prepared_by_evaluation.
  assert (Hq : p_body p !! "query" = Some (VStr Fixture.list_test_vertices_aql))
    by by_evaluation.
  assert (Ha : require_auth_token Fixture.env ["RE_ADMIN"%string] Fixture.adhoc_request
               = ok tt) by by_evaluation.
  split; [exact Hp|]. split; [exact Hq|]. split; [exact Ha|].
  exact (adhoc_query_ws_ids_overwritten Fixture.env Fixture.adhoc_request p _
           Fixture.fresh_world Hp Hq Ha).
Defined.

(** ** Dispatch *)



(** C7: on the cursor path the database call depends on the cursor id
    alone.  Two requests with the same arguments, a [cursor_id] and neither
    [query] nor [view], issue the same single call and run alike whatever
    their bind variables are. *)
Theorem cursor_path_ignores_bind_vars {DB} (env : Env DB) (req1 req2 : Request)
    (p1 p2 : Prepared) (cursor_id : string) (w : World DB) :
  prepared env req1 p1 ->
  prepared env req2 p2 ->
  args req1 = args req2 ->
  p_body p1 !! "query" = None ->
  p_body p2 !! "query" = None ->
  args_get (args req1) "view" = None ->
  args_get (args req1) "cursor_id" = Some cursor_id ->
  issued env req1 w = [Cursor_kwargs cursor_id] ∧
  issued env req2 w = [Cursor_kwargs cursor_id] ∧
  run_query env req1 w = run_query env req2 w.
Proof.
  intros Hp1 Hp2 Hargs Hq1 Hq2 Hview Hcursor.
  assert (H1 : run_query env req1 w = arango_client_run_query env (Cursor_kwargs cursor_id) w).
  { rewrite (run_query_prepared env req1 p1 w Hp1). unfold dispatch.
    by rewrite Hq1, Hview, Hcursor. }
  assert (H2 : run_query env req2 w = arango_client_run_query env (Cursor_kwargs cursor_id) w).
  { rewrite (run_query_prepared env req2 p2 w Hp2). unfold dispatch.
    by rewrite Hq2, <- Hargs, Hview, Hcursor. }
  split; [by apply issued_call|]. split; [by apply issued_call|]. by rewrite H1, H2.
Qed.

Lemma cursor_path_ignores_bind_vars_witness :
  let req1 := Fixture.cursor_request "0" None in
  let req2 := Fixture.cursor_request "0" (Some (Fixture.caller_ws_ids [99; 9999])) in
  let p1 := {| p_body := ∅; p_bind_vars := ∅; p_ids := [1; 2; 3]; p_batch_size := 100 |} in
  let p2 := {| p_body := <["bind_vars" := VDict {[ "ws_ids" := VList [VInt 99; VInt 9999] ]}]> ∅;
               p_bind_vars := {[ "ws_ids" := VList [VInt 99; VInt 9999] ]};
               p_ids := [1; 2; 3]; p_batch_size := 100 |} in
  (prepared Fixture.env req1 p1 ∧ prepared Fixture.env req2 p2) ∧
  issued Fixture.env req1 Fixture.world_after_first_page = [Cursor_kwargs "0"] ∧
  issued Fixture.env req2 Fixture.world_after_first_page = [Cursor_kwargs "0"] ∧
  run_query Fixture.env req1 Fixture.world_after_first_page =
  run_query Fixture.env req2 Fixture.world_after_first_page.
Proof.
  intros req1 req2 p1 p2.
  assert (Hp1 : prepared Fixture.env req1 p1) by prepared_by_evaluation.
  assert (Hp2 : prepared Fixture.env req2 p2) by prepared_by_evaluation.
  split; [by split|].
  apply (cursor_path_ignores_bind_vars Fixture.env req1 req2 p1 p2 "0"
           Fixture.world_after_first_page Hp1 Hp2); reflexivity.
Defined.

(** ** Failures before the database *)




(** C10 fails as stated: with [batch_size=abc] and a token the gateway
    rejects, the request fails with [AuthError] on line 24, before the
    batch size is read. *)
Lemma bad_batch_size_rejected_token_example :
  Fixture.bad_batch_invalid_token =
    Fixture.post [("view", "list_test_vertices"); ("batch_size", "abc")]%string
      (Some "invalid_token"%string) None ∧
  int_of_str Fixture.env "abc" = None ∧
  run_query Fixture.env Fixture.bad_batch_invalid_token Fixture.fresh_world
    = (inl AuthError, Fixture.fresh_world).
Proof. repeat split; by_evaluation. Qed.

(** C10, amended: a request whose [batch_size] argument does not read as
    an integer fails before any branch of the dispatch and before any
    database call; it never runs with the default of 100.  The failure is
    the [ValueError] of line 26 whenever lines 17 to 24 pass, and never the
    handler's [InvalidParameters] message. *)
Theorem bad_batch_size_raises_ValueError {DB} (env : Env DB) (req : Request)
    (s : string) (w : World DB) :
  args_get (args req) "batch_size" = Some s ->
  int_of_str env s = None ->
  (∃ e, run_query env req w = (inl e, w)) ∧
  issued env req w = [] ∧
  (∀ d bv ids, bound env req d bv ids -> run_query env req w = (inl ValueError, w)).
Proof.
  intros Harg Hint.
  assert (Hn : read_batch_size env req = throw ValueError).
  { unfold read_batch_size. by rewrite Harg, Hint. }
  assert (Hbound : ∀ d bv ids, bound env req d bv ids ->
                               run_query env req w = (inl ValueError, w)).
  { intros d bv ids Hb. by rewrite (run_query_bound env req d bv ids w Hb), Hn. }
  assert (Hfail : ∃ e, run_query env req w = (inl e, w)).
  { destruct (run_query_fails_or_bound env req w) as [Hfail | (d & bv & ids & Hb)]; [done|].
    eexists. by apply Hbound with d bv ids. }
  split; [done|]. split; [|done].
  destruct Hfail as [e He]. by apply issued_failed with e.
Qed.

Lemma bad_batch_size_raises_ValueError_witness :
  (args_get (args Fixture.bad_batch_request) "batch_size" = Some "abc"%string ∧
   int_of_str Fixture.env "abc" = None ∧
   bound Fixture.env Fixture.bad_batch_request ∅ ∅ [1; 2; 3]) ∧
  issued Fixture.env Fixture.bad_batch_request Fixture.fresh_world = [] ∧
  run_query Fixture.env Fixture.bad_batch_request Fixture.fresh_world
    = (inl ValueError, Fixture.fresh_world).
Proof.
  assert (Ha : args_get (args Fixture.bad_batch_request) "batch_size" = Some "abc"%string)
    by reflexivity.
  assert (Hi : int_of_str Fixture.env "abc" = None) by reflexivity.
  assert (Hb : bound Fixture.env Fixture.bad_batch_request ∅ ∅ [1; 2; 3]).
  { split; [eexists; split; by_evaluation|].
    split; [by_evaluation | eexists; split; by_evaluation]. }
  destruct (bad_batch_size_raises_ValueError Fixture.env Fixture.bad_batch_request "abc"
              Fixture.fresh_world Ha Hi) as (_ & Hnone & Hval).
  split; [split; [exact Ha | split; [exact Hi | exact Hb]]|].
  split; [exact Hnone|]. exact (Hval ∅ ∅ [1; 2; 3] Hb).
Defined.

(** ** Unknown views *)

(** C6 fails as stated: the administrator's ad-hoc query that also names
    the unknown view [nonexistent] is answered with a Result Page, since a
    [query] in the body is served before the [view] argument is looked at. *)
Lemma unknown_view_with_query_example :
  Fixture.unknown_view_adhoc =
    Fixture.post [("view", "nonexistent")]%string (Some "admin_token"%string)
      (Some (VDict (<["query" := VStr Fixture.list_test_vertices_aql]>
                   (<["bind_vars" := VDict {[ "ws_ids" := VList [] ]}]> ∅)))) ∧
  Fixture.views !! "nonexistent" = None ∧
  format_response (run_query Fixture.env Fixture.unknown_view_adhoc Fixture.fresh_world).1
    = Success (result_page [Fixture.vertex "2" 99] 1 None).
Proof. repeat split; by_evaluation. Qed.

(** C6, amended: a request that names a view the spec repository does not
    have, carries no [query] in its body and passes the preamble fails
    with the not-found error for that name before any database call, and
    is answered with the error object that echoes the name. *)
Theorem unknown_view_error_object (gw : gmap string CallerIdentity)
    (views : gmap string string) (jinja : string -> res Template)
    (int : string -> option Z) (eval_query : value -> value -> res (list value))
    (req : Request) (p : Prepared) (view_name : string) (w : World Database) :
  let env := spec_env gw views jinja int eval_query in
  prepared env req p ->
  p_body p !! "query" = None ->
  args_get (args req) "view" = Some view_name ->
  views !! view_name = None ->
  run_query env req w = (inl (NotFoundError view_name), w) ∧
  issued env req w = [] ∧
  format_response (run_query env req w).1 =
    ErrorPayload (<["error" := VStr "View does not exist."]>
                    {[ "name" := VStr view_name ]}).
Proof.
  intros env Hp Hquery Hview Hnone.
  assert (Hrun : run_query env req w = (inl (NotFoundError view_name), w)).
  { rewrite (run_query_prepared env req p w Hp). unfold dispatch.
    rewrite Hquery, Hview, bind_lift. simpl. unfold spec_get_view. by rewrite Hnone. }
  split; [done|]. split; [by apply issued_failed with (NotFoundError view_name)|].
  by rewrite Hrun.
Qed.

Lemma unknown_view_error_object_witness :
  let p := {| p_body := ∅; p_bind_vars := ∅; p_ids := []; p_batch_size := 100 |} in
  (prepared Fixture.env Fixture.unknown_view_request p ∧
   p_body p !! "query" = None ∧
   args_get (args Fixture.unknown_view_request) "view" = Some "nonexistent"%string ∧
   Fixture.views !! "nonexistent" = None) ∧
  format_response
    (run_query Fixture.env Fixture.unknown_view_request Fixture.fresh_world).1 =
    ErrorPayload (<["error" := VStr "View does not exist."]>
                    {[ "name" := VStr "nonexistent" ]}).
Proof.
  intros p.
  assert (Hp : prepared Fixture.env Fixture.unknown_view_request p)
    by prepared_by_evaluation.
  assert (Hq : p_body p !! "query" = None) by reflexivity.
  assert (Hv : args_get (args Fixture.unknown_view_request) "view"
               = Some "nonexistent"%string) by reflexivity.
  assert (Hn : Fixture.views !! "nonexistent" = None) by by_evaluation.
  split; [split; [exact Hp | split; [exact Hq | split; [exact Hv | exact Hn]]]|].
  exact (proj2 (proj2 (unknown_view_error_object Fixture.gateway Fixture.views
                         Fixture.verbatim Fixture.decimal_int
                         (Fixture.eval_query Fixture.test_vertex)
                         Fixture.unknown_view_request p "nonexistent"
                         Fixture.fresh_world Hp Hq Hv Hn))).
Defined.

(** ** Cursors *)

Lemma issued_id_mono (cursor_id : string) (n : nat) :
  cursor_id ∈ (pretty <$> seq 0 n) -> cursor_id ∈ (pretty <$> seq 0 (S n)).
Proof.
  intros H. rewrite seq_S, fmap_app. apply elem_of_app. by left.
Qed.

Lemma next_id_issued (n : nat) : pretty n ∈ (pretty <$> seq 0 (S n)).
Proof.
  rewrite seq_S, fmap_app. apply elem_of_app. right. simpl. apply list_elem_of_here.
Qed.

Lemma next_id_fresh (n : nat) : pretty n ∉ (pretty <$> seq 0 n).
Proof.
  intros H. apply list_elem_of_fmap_inj_2 in H; [|apply _].
  apply elem_of_seq in H. lia.
Qed.

Lemma page_has_more_result_page results count cursor_id :
  page_has_more (result_page results count cursor_id)
  = Some (VBool (bool_decide (is_Some cursor_id))).
Proof. unfold page_has_more, result_page. by simplify_map_eq. Qed.

Section EngineFacts.
Variable eval_query : value -> value -> res (list value).

(** The engine keeps its bookkeeping: live cursors stay within the ids
    handed out. *)
Lemma engine_cursors_issued kw d :
  cursors_issued d -> cursors_issued (spec_arango_run_query eval_query kw d).2.
Proof.
  unfold cursors_issued. intros Hd.
  destruct kw as [q bv n | cid]; simpl.
  - unfold start_query. destruct (eval_query q bv) as [e|docs]; [done|].
    destruct (drop (Z.to_nat n) docs) as [|doc rest]; [done|]. simpl.
    apply map_Forall_insert_2; [apply next_id_issued|].
    eapply map_Forall_impl; [exact Hd|]. intros k c. apply issued_id_mono.
  - unfold advance_cursor. destruct (cursors d !! cid) as [c|] eqn:Hc; [|done].
    destruct (drop _ (remaining c)) as [|doc rest]; simpl.
    + by apply map_Forall_delete.
    + apply map_Forall_insert_2; [|done]. by apply (Hd cid c).
Qed.

(** A retired id stays retired: fresh ids are new, and a cursor that is
    gone is never put back. *)
Lemma engine_retired cursor_id kw d :
  retired cursor_id d -> retired cursor_id (spec_arango_run_query eval_query kw d).2.
Proof.
  intros [Hin Hgone].
  destruct kw as [q bv n | cid]; simpl.
  - unfold start_query. destruct (eval_query q bv) as [e|docs]; [done|].
    destruct (drop (Z.to_nat n) docs) as [|doc rest]; [done|]. simpl.
    split; simpl; [by apply issued_id_mono|].
    rewrite lookup_insert_ne; [done|].
    intros Heq. apply (next_id_fresh (next_id d)). by rewrite Heq.
  - unfold advance_cursor. destruct (cursors d !! cid) as [c|] eqn:Hc; [|done].
    assert (cid ≠ cursor_id) by (intros ->; congruence).
    destruct (drop _ (remaining c)) as [|doc rest]; simpl; (split; simpl; [done|]).
    + by rewrite lookup_delete_ne.
    + by rewrite lookup_insert_ne.
Qed.

(** The cursor that hands out a page marked exhausted is retired. *)
Lemma advance_cursor_exhausted cursor_id d page d' :
  cursors_issued d ->
  advance_cursor cursor_id d = (inr page, d') ->
  page_has_more page = Some (VBool false) ->
  retired cursor_id d'.
Proof.
  unfold advance_cursor. intros Hd Hrun Hmore.
  destruct (cursors d !! cursor_id) as [c|] eqn:Hc; [|discriminate].
  destruct (drop _ (remaining c)) as [|doc rest]; injection Hrun as <- <-.
  - split; simpl; [by apply (Hd cursor_id c) | apply lookup_delete_eq].
  - rewrite page_has_more_result_page in Hmore. discriminate.
Qed.

(** Looking up a retired id fails with the cursor-not-found error and
    changes nothing. *)
Lemma advance_cursor_retired cursor_id d :
  retired cursor_id d ->
  advance_cursor cursor_id d = (inl (CursorNotFoundError "cursor not found"), d).
Proof. intros [_ Hgone]. unfold advance_cursor. by rewrite Hgone. Qed.

End EngineFacts.

Section Serving.
Context (env : Env Database) (eval_query : value -> value -> res (list value)).
Hypothesis env_engine :
  ∀ kw d, arango_run_query env kw d = spec_arango_run_query eval_query kw d.

Lemma run_query_retired cursor_id req w :
  retired cursor_id (db w) -> retired cursor_id (db (run_query env req w).2).
Proof.
  intros Hd.
  destruct (run_query_outcome env req w) as [[e He] | (p & kw & _ & _ & Hrun)].
  - by rewrite He.
  - rewrite Hrun, arango_client_db, env_engine. by apply engine_retired.
Qed.

Lemma serve_retired cursor_id reqs w :
  retired cursor_id (db w) -> retired cursor_id (db (serve env reqs w)).
Proof.
  revert w. induction reqs as [|req reqs IH]; intros w Hd; [done|].
  simpl. apply IH. by apply run_query_retired.
Qed.

End Serving.

(** C5: once a lookup of a cursor id has returned a page with
    [has_more = false] and [cursor_id] null, every later lookup of that id,
    whatever requests were served in between, fails with the
    cursor-not-found error and its upstream detail; it is answered with an
    error object, not with a page and not with a crash, and the database
    is left as it was. *)
Theorem exhausted_cursor_not_found (gw : gmap string CallerIdentity)
    (views : gmap string string) (jinja : string -> res Template)
    (int : string -> option Z) (eval_query : value -> value -> res (list value))
    (req1 req2 : Request) (p1 p2 : Prepared) (reqs : list Request)
    (cursor_id : string) (page : value) (w0 : World Database) :
  let env := spec_env gw views jinja int eval_query in
  cursors_issued (db w0) ->
  prepared env req1 p1 ->
  p_body p1 !! "query" = None ->
  args_get (args req1) "view" = None ->
  args_get (args req1) "cursor_id" = Some cursor_id ->
  (run_query env req1 w0).1 = inr page ->
  exhausted page ->
  prepared env req2 p2 ->
  p_body p2 !! "query" = None ->
  args_get (args req2) "view" = None ->
  args_get (args req2) "cursor_id" = Some cursor_id ->
  let w2 := serve env reqs (run_query env req1 w0).2 in
  run_query env req2 w2 =
    (inl (CursorNotFoundError "cursor not found"),
     {| db := db w2; calls := calls w2 ++ [Cursor_kwargs cursor_id] |}) ∧
  format_response (run_query env req2 w2).1 =
    ErrorPayload (<["error" := VStr "CursorNotFoundError"]>
                    {[ "arango_message" := VStr "cursor not found" ]}).
Proof.
  intros env Hw0 Hp1 Hq1 Hv1 Hc1 Hpage [Hmore _] Hp2 Hq2 Hv2 Hc2 w2.
  assert (Hengine : ∀ kw d,
            arango_run_query env kw d = spec_arango_run_query eval_query kw d) by done.
  assert (H1 : run_query env req1 w0 = arango_client_run_query env (Cursor_kwargs cursor_id) w0).
  { rewrite (run_query_prepared env req1 p1 w0 Hp1). unfold dispatch.
    by rewrite Hq1, Hv1, Hc1. }
  assert (Hretired : retired cursor_id (db (run_query env req1 w0).2)).
  { rewrite H1, arango_client_db. rewrite H1, arango_client_result in Hpage.
    simpl in *.
    destruct (advance_cursor cursor_id (db w0)) as [r d'] eqn:Hadv. simpl in *. subst r.
    by apply (advance_cursor_exhausted cursor_id (db w0) page d'). }
  apply (serve_retired env eval_query Hengine cursor_id reqs) in Hretired.
  fold w2 in Hretired.
  assert (H2 : run_query env req2 w2 =
               (inl (CursorNotFoundError "cursor not found"),
                {| db := db w2; calls := calls w2 ++ [Cursor_kwargs cursor_id] |})).
  { rewrite (run_query_prepared env req2 p2 w2 Hp2). unfold dispatch.
    rewrite Hq2, Hv2, Hc2. unfold arango_client_run_query. simpl.
    by rewrite (advance_cursor_retired cursor_id (db w2) Hretired). }
  split; [done|]. by rewrite H2.
Qed.

Lemma exhausted_cursor_not_found_witness :
  let env := Fixture.env in
  let w0 := Fixture.world_after_first_page in
  let req := Fixture.cursor_request "0" None in
  let p := {| p_body := ∅; p_bind_vars := ∅; p_ids := [1; 2; 3]; p_batch_size := 100 |} in
  let page := result_page [Fixture.vertex "4" 2] 3 None in
  let w2 := serve env [Fixture.view_request; Fixture.cursor_request "1" None]
              (run_query env req w0).2 in
  (cursors_issued (db w0) ∧ prepared env req p ∧
   (run_query env req w0).1 = inr page ∧ exhausted page) ∧
  run_query env req w2 =
    (inl (CursorNotFoundError "cursor not found"),
     {| db := db w2; calls := calls w2 ++ [Cursor_kwargs "0"] |}) ∧
  format_response (run_query env req w2).1 =
    ErrorPayload (<["error" := VStr "CursorNotFoundError"]>
                    {[ "arango_message" := VStr "cursor not found" ]}).
Proof.
  intros env w0 req p page w2.
  assert (Hw0 : cursors_issued (db w0)) by (apply (bool_decide_unpack _); by_evaluation).
  assert (Hp : prepared env req p) by prepared_by_evaluation.
  assert (Hpage : (run_query env req w0).1 = inr page) by by_evaluation.
  assert (Hex : exhausted page) by (split; by_evaluation).
  split; [split; [exact Hw0 | split; [exact Hp | split; [exact Hpage | exact Hex]]]|].
  apply (exhausted_cursor_not_found Fixture.gateway Fixture.views Fixture.verbatim
           Fixture.decimal_int (Fixture.eval_query Fixture.test_vertex)
           req req p p [Fixture.view_request; Fixture.cursor_request "1" None]
           "0" page w0 Hw0 Hp); try reflexivity; assumption.
Defined.

(** ** The handler as preamble and dispatch *)

Section Staging.
Context {DB : Type} (env : Env DB).

Lemma preamble_prepared req p : preamble env req = ok p <-> prepared env req p.
Proof.
  unfold preamble, prepared, bound. split.
  - destruct (get_json_body env req) as [e|body] eqn:Hbody; [discriminate|].
    destruct (py_or body (VDict ∅)) as [| | | | | |d] eqn:Hor; try discriminate.
    destruct (bind_vars_of d) as [bv|] eqn:Hbv; [|discriminate].
    destruct (get_auth_header env req) as [e|tok] eqn:Htok; [discriminate|].
    destruct (get_workspace_ids env tok) as [e|ids] eqn:Hids; [discriminate|].
    destruct (read_batch_size env req) as [e|n] eqn:Hn; [discriminate|].
    intros [= <-]. simpl. unfold ok.
    split; [split; [by exists body | split; [done | by exists tok]] | done].
  - destruct p as [d bv ids n]; simpl.
    intros [[(body & Hbody & Hor) [Hbv (tok & Htok & Hids)]] Hn]. unfold ok in *.
    by rewrite Hbody, Hor, Hbv, Htok, Hids, Hn.
Qed.

(** A body that is no dictionary never gets past line 21. *)
Lemma run_query_not_dict req body w :
  get_json_body env req = ok body ->
  (∀ d, py_or body (VDict ∅) ≠ VDict d) ->
  run_query env req w = (inl TypeError, w).
Proof.
  intros Hbody Hnd. unfold run_query. rewrite bind_lift, Hbody. unfold ok.
  rewrite bind_lift.
  destruct (py_or body (VDict ∅)) as [| | | |s|l|d]; cbn [py_contains]; try done.
  - unfold ok. rewrite bind_lift. by destruct (is_substring _ _).
  - unfold ok. rewrite bind_lift. by destruct (existsb _ _).
  - by destruct (Hnd d).
Qed.

(** Bind variables that are no dictionary end the request on line 21. *)
Lemma run_query_bad_bind_vars req body d w :
  get_json_body env req = ok body ->
  py_or body (VDict ∅) = VDict d ->
  bind_vars_of d = None ->
  run_query env req w = (inl TypeError, w).
Proof.
  intros Hbody Hor Hbv. unfold run_query. rewrite bind_lift, Hbody. unfold ok.
  rewrite Hor, bind_lift. cbn [py_contains ok]. rewrite bind_lift.
  unfold bind_vars_of in Hbv.
  destruct (d !! "bind_vars") as [v|] eqn:Hl; [|discriminate].
  rewrite bool_decide_true by eauto. cbn [negb]. rewrite bind_lift.
  unfold py_setitem_nested. cbn [py_getitem]. rewrite Hl.
  by destruct v.
Qed.

(** The steps between the body and the dispatch, one failure at a time. *)
Lemma run_query_steps req body d bv w :
  get_json_body env req = ok body ->
  py_or body (VDict ∅) = VDict d ->
  bind_vars_of d = Some bv ->
  run_query env req w =
    match get_auth_header env req with
    | inl e => (inl e, w)
    | inr auth_token =>
        match get_workspace_ids env auth_token with
        | inl e => (inl e, w)
        | inr ids =>
            match read_batch_size env req with
            | inl e => (inl e, w)
            | inr n => dispatch env req {| p_body := d; p_bind_vars := bv;
                                            p_ids := ids; p_batch_size := n |} w
            end
        end
    end.
Proof.
  intros Hbody Hor Hbv.
  destruct (get_auth_header env req) as [e|tok] eqn:Htok;
    [|destruct (get_workspace_ids env tok) as [e|ids] eqn:Hids].
  3: { apply run_query_bound. unfold bound, ok. eauto 10. }
  all: unfold run_query; rewrite bind_lift, Hbody; unfold ok; rewrite Hor;
    rewrite bind_lift; cbn [py_contains ok]; rewrite bind_lift.
  all: assert (Hstep :
        ∃ d0, (if negb (bool_decide (is_Some (d !! "bind_vars")))
               then py_setitem (VDict d) "bind_vars" (VDict ∅) else inr (VDict d))
              = inr (VDict d0) ∧ d0 !! "bind_vars" = Some (VDict bv))
    by (unfold bind_vars_of in Hbv;
        destruct (d !! "bind_vars") as [[| | | | | |bv']|] eqn:Hl;
          try discriminate; simplify_eq;
        [ exists d; rewrite bool_decide_true by eauto; by split
        | eexists; rewrite bool_decide_false by (by intros [? ?]);
          split; [reflexivity | apply lookup_insert_eq] ]).
  all: destruct Hstep as (d0 & -> & Hd0).
  all: rewrite bind_lift, (py_setitem_nested_dict _ bv) by done; unfold ok.
  all: rewrite bind_lift, Htok; try done.
  rewrite bind_lift, Hids. done.
Qed.

(** The handler is its preamble followed by the dispatch. *)
Lemma run_query_preamble req w :
  run_query env req w =
    match preamble env req with
    | inl e => (inl e, w)
    | inr p => dispatch env req p w
    end.
Proof.
  unfold preamble.
  destruct (get_json_body env req) as [e|body] eqn:Hbody.
  { unfold run_query. by rewrite bind_lift, Hbody. }
  destruct (py_or body (VDict ∅)) as [| | | | | |d] eqn:Hor;
    try (apply (run_query_not_dict req body w Hbody); by rewrite Hor).
  destruct (bind_vars_of d) as [bv|] eqn:Hbv.
  - rewrite (run_query_steps req body d bv w Hbody Hor Hbv).
    destruct (get_auth_header env req) as [e|tok]; [done|].
    destruct (get_workspace_ids env tok) as [e|ids]; [done|].
    by destruct (read_batch_size env req) as [e|n].
  - by apply (run_query_bad_bind_vars req body d w).
Qed.

End Staging.

Lemma py_or_nonempty_dict (d : gmap string value) (k : string) (v : value) :
  d !! k = Some v -> py_or (VDict d) (VDict ∅) = VDict d.
Proof.
  intros Hk. unfold py_or; simpl.
  destruct (Nat.eqb_spec (size d) 0) as [Hz | _]; [|done].
  apply map_size_empty_iff in Hz. subst. by rewrite lookup_empty in Hk.
Qed.

Lemma issued_length {DB} (env : Env DB) (req : Request) (w : World DB) :
  (length (issued env req w) ≤ 1)%nat.
Proof.
  destruct (run_query_outcome env req w) as [[e He] | (p & kw & _ & _ & Hrun)].
  - rewrite (issued_failed _ _ _ _ He). simpl. lia.
  - by rewrite (issued_call _ _ _ _ Hrun).
Qed.

(** ** The handler as a relay *)

(** X1: the handler adds nothing of its own to the database's answer: when it
    makes its call, its outcome (a page or an exception) and the new state
    are those of the call; when it makes none, it ends in an exception and
    the world is as before. *)
Theorem handler_relays_database {DB} (env : Env DB) (req : Request) (w : World DB) :
  (issued env req w = [] ∧ ∃ e, run_query env req w = (inl e, w)) ∨
  (∃ kw, issued env req w = [kw] ∧
         run_query env req w =
           ((arango_run_query env kw (db w)).1,
            {| db := (arango_run_query env kw (db w)).2; calls := calls w ++ [kw] |})).
Proof.
  destruct (run_query_outcome env req w) as [[e He] | (p & kw & _ & _ & Hrun)].
  - left. split; [by apply issued_failed with e | by exists e].
  - right. exists kw. split; [by apply issued_call|].
    rewrite Hrun. unfold arango_client_run_query.
    by destruct (arango_run_query env kw (db w)).
Qed.

(** X2: serving a list of requests appends to the log of database calls, at
    most one call for each request. *)
Theorem serve_at_most_one_call_each {DB} (env : Env DB) (reqs : list Request)
    (w : World DB) :
  ∃ l, calls (serve env reqs w) = calls w ++ l ∧ (length l ≤ length reqs)%nat.
Proof.
  revert w. induction reqs as [|req reqs IH]; intros w.
  - exists []. simpl. by rewrite app_nil_r.
  - destruct (IH (run_query env req w).2) as (l & Hl & Hlen).
    exists (issued env req w ++ l). split.
    + change (serve env (req :: reqs) w) with (serve env reqs (run_query env req w).2).
      rewrite Hl, calls_issued. by rewrite app_assoc.
    + rewrite length_app. simpl. pose proof (issued_length env req w). lia.
Qed.

(** ** Bodies the handler cannot use *)

(** X3: a body that is truthy and no JSON object (a non-empty list or string,
    a non-zero number, [true]) ends the request in [TypeError] on lines 18
    to 21: before the token is looked at, whatever the arguments are, and
    without a database call. *)
Theorem non_object_body_TypeError {DB} (env : Env DB) (req : Request) (body : value)
    (w : World DB) :
  get_json_body env req = ok body ->
  py_truthy body = true ->
  (∀ d, body ≠ VDict d) ->
  run_query env req w = (inl TypeError, w).
Proof.
  intros Hbody Htruthy Hnd. apply run_query_not_dict with body; [done|].
  unfold py_or. rewrite Htruthy. exact Hnd.
Qed.

Lemma non_object_body_TypeError_witness :
  (get_json_body Fixture.env Fixture.list_body_request = ok (VList [VStr "bind_vars"]) ∧
   py_truthy (VList [VStr "bind_vars"]) = true) ∧
  run_query Fixture.env Fixture.list_body_request Fixture.fresh_world
    = (inl TypeError, Fixture.fresh_world).
Proof.
  split; [split; reflexivity|].
  apply (non_object_body_TypeError Fixture.env Fixture.list_body_request
           (VList [VStr "bind_vars"])); [reflexivity | reflexivity | discriminate].
Defined.

(** X4: bind variables that are present and no JSON object (null, a list, a
    number, a string) end the request in [TypeError] on line 21, again
    before the token and the batch size are looked at. *)
Theorem non_object_bind_vars_TypeError {DB} (env : Env DB) (req : Request)
    (d : gmap string value) (v : value) (w : World DB) :
  get_json_body env req = ok (VDict d) ->
  d !! "bind_vars" = Some v ->
  (∀ bv, v ≠ VDict bv) ->
  run_query env req w = (inl TypeError, w).
Proof.
  intros Hbody Hv Hnd.
  apply run_query_bad_bind_vars with (VDict d) d; [done | |].
  - by apply py_or_nonempty_dict with "bind_vars"%string v.
  - unfold bind_vars_of. rewrite Hv.
    destruct v as [| | | | | |bv]; try done. by destruct (Hnd bv).
Qed.

Lemma non_object_bind_vars_TypeError_witness :
  (get_json_body Fixture.env Fixture.null_bind_vars_request
     = ok (VDict (<["bind_vars" := VNone]> ∅)) ∧
   (<["bind_vars" := VNone]> ∅ : gmap string value) !! "bind_vars" = Some VNone) ∧
  run_query Fixture.env Fixture.null_bind_vars_request Fixture.fresh_world
    = (inl TypeError, Fixture.fresh_world).
Proof.
  split; [split; reflexivity|].
  apply (non_object_bind_vars_TypeError Fixture.env Fixture.null_bind_vars_request
           (<["bind_vars" := VNone]> ∅) VNone); [reflexivity | reflexivity | discriminate].
Defined.

(** X5: a falsy body ([None], [{}], [[]], the empty string, [0], [false]) is
    replaced by an empty object on line 17: two requests with falsy bodies,
    the same arguments and the same token run alike. *)
Theorem falsy_body_runs_as_empty {DB} (env : Env DB) (req1 req2 : Request)
    (body1 body2 : value) (w : World DB) :
  get_json_body env req1 = ok body1 ->
  get_json_body env req2 = ok body2 ->
  py_truthy body1 = false ->
  py_truthy body2 = false ->
  args req1 = args req2 ->
  get_auth_header env req1 = get_auth_header env req2 ->
  run_query env req1 w = run_query env req2 w.
Proof.
  intros Hb1 Hb2 Hf1 Hf2 Hargs Hauth.
  rewrite !run_query_preamble. unfold preamble, read_batch_size.
  rewrite Hb1, Hb2, <- Hauth, <- Hargs. unfold ok, py_or. rewrite Hf1, Hf2.
  cbv beta iota. change (bind_vars_of ∅) with (Some (∅ : gmap string value)).
  cbv beta iota.
  destruct (get_auth_header env req1) as [e|tok]; [done|].
  destruct (get_workspace_ids env tok) as [e|ids]; [done|].
  destruct (args_get (args req1) "batch_size") as [s|].
  - destruct (int_of_str env s) as [n|]; [|done].
    unfold dispatch; simpl. by rewrite lookup_empty, <- Hargs.
  - unfold dispatch; simpl. by rewrite lookup_empty, <- Hargs.
Qed.

Lemma falsy_body_runs_as_empty_witness :
  (get_json_body Fixture.env Fixture.view_no_body = ok VNone ∧
   get_json_body Fixture.env Fixture.view_zero_body = ok (VInt 0)) ∧
  run_query Fixture.env Fixture.view_no_body Fixture.fresh_world =
  run_query Fixture.env Fixture.view_zero_body Fixture.fresh_world.
Proof.
  split; [split; reflexivity|].
  apply (falsy_body_runs_as_empty Fixture.env Fixture.view_no_body Fixture.view_zero_body
           VNone (VInt 0)); reflexivity.
Defined.

(** ** The gateway and the role check *)

(** X6: the token is resolved on every path.  When the gateway fails on line
    24, the request ends in the gateway's exception whether it carries a
    query, a view, a cursor id or nothing, whatever its batch size is, and
    without a database call. *)
Theorem gateway_failure_fails_closed {DB} (env : Env DB) (req : Request)
    (body : value) (d bv : gmap string value) (auth_token : option string) (e : exn)
    (w : World DB) :
  get_json_body env req = ok body ->
  py_or body (VDict ∅) = VDict d ->
  bind_vars_of d = Some bv ->
  get_auth_header env req = ok auth_token ->
  get_workspace_ids env auth_token = throw e ->
  run_query env req w = (inl e, w).
Proof.
  intros Hbody Hor Hbv Htok Hids.
  rewrite (run_query_steps env req body d bv w Hbody Hor Hbv).
  unfold ok, throw in *. by rewrite Htok, Hids.
Qed.

Lemma gateway_failure_fails_closed_witness :
  (get_json_body Fixture.env Fixture.cursor_rejected_token = ok VNone ∧
   py_or VNone (VDict ∅) = VDict ∅ ∧
   bind_vars_of ∅ = Some ∅ ∧
   get_auth_header Fixture.env Fixture.cursor_rejected_token
     = ok (Some "invalid_token"%string) ∧
   get_workspace_ids Fixture.env (Some "invalid_token"%string) = throw AuthError) ∧
  run_query Fixture.env Fixture.cursor_rejected_token Fixture.world_after_first_page
    = (inl AuthError, Fixture.world_after_first_page).
Proof.
  split; [repeat split; by_evaluation|].
  apply (gateway_failure_fails_closed Fixture.env Fixture.cursor_rejected_token
           VNone ∅ ∅ (Some "invalid_token"%string) AuthError); by_evaluation.
Defined.

(** X7: the role check is consulted for ad-hoc queries only: a request whose
    body has no [query] runs the same under any role check, also one that
    rejects every caller. *)
Theorem role_check_only_for_adhoc_queries {DB} (env : Env DB)
    (check : list string -> Request -> res unit) (req : Request) (w : World DB) :
  ¬ body_has_query env req ->
  run_query (with_role_check env check) req w = run_query env req w.
Proof.
  intros Hnq. rewrite !run_query_preamble.
  change (preamble (with_role_check env check) req) with (preamble env req).
  destruct (preamble env req) as [e|p] eqn:Hp; [done|].
  apply preamble_prepared in Hp.
  assert (Hquery : p_body p !! "query" = None).
  { destruct (p_body p !! "query") as [q|] eqn:Hq; [|done].
    destruct Hnq. destruct Hp as [[(body & Hbody & Hor) _] _].
    exists body, (p_body p). by rewrite Hq. }
  unfold dispatch. by rewrite Hquery.
Qed.

Lemma role_check_only_for_adhoc_queries_witness :
  let nobody : list string -> Request -> res unit := fun _ _ => throw PermissionError in
  ¬ body_has_query Fixture.env Fixture.view_request ∧
  run_query (with_role_check Fixture.env nobody) Fixture.view_request Fixture.fresh_world =
  run_query Fixture.env Fixture.view_request Fixture.fresh_world.
Proof.
  intros nobody.
  assert (Hnq : ¬ body_has_query Fixture.env Fixture.view_request).
  { intros (body & d & Hbody & Hor & [q Hq]).
    injection Hbody as <-. vm_compute in Hor. injection Hor as <-.
    vm_compute in Hq. discriminate. }
  split; [exact Hnq|].
  exact (role_check_only_for_adhoc_queries Fixture.env nobody Fixture.view_request
           Fixture.fresh_world Hnq).
Defined.

(** ** What reaches the database *)

(** X8: whenever the handler starts a query, ad-hoc or from a view, the bind
    variables it passes are the caller's with [ws_ids] set to the gateway's
    IDs: no other key is added, dropped or changed. *)
Theorem bind_vars_frame {DB} (env : Env DB) (req : Request) (p : Prepared)
    (w : World DB) (query_text bind_vars : value) (batch_size : Z) :
  prepared env req p ->
  Query_kwargs query_text bind_vars batch_size ∈ issued env req w ->
  bind_vars = VDict (<["ws_ids" := VList (VInt <$> p_ids p)]> (p_bind_vars p)).
Proof.
  intros Hp Hin.
  destruct (issued_inv env req w _ Hin) as (p0 & Hp0 & (-> & _) & _).
  by rewrite (prepared_unique env req _ _ Hp0 Hp).
Qed.

Lemma bind_vars_frame_witness :
  let p := {| p_body := <["bind_vars" := VDict {[ "xyz" := VStr "test_vertex" ]}]> ∅;
              p_bind_vars := {[ "xyz" := VStr "test_vertex" ]};
              p_ids := [1; 2; 3]; p_batch_size := 100 |} in
  let sent := VDict (<["ws_ids" := VList [VInt 1; VInt 2; VInt 3]]>
                       {[ "xyz" := VStr "test_vertex" ]}) in
  (prepared Fixture.env Fixture.view_request_named_bind_var p ∧
   Query_kwargs (VStr Fixture.list_test_vertices_aql) sent 100
     ∈ issued Fixture.env Fixture.view_request_named_bind_var Fixture.fresh_world) ∧
  sent = VDict (<["ws_ids" := VList (VInt <$> p_ids p)]> (p_bind_vars p)).
Proof.
  intros p sent.
  assert (Hp : prepared Fixture.env Fixture.view_request_named_bind_var p)
    by prepared_by_evaluation.
  assert (Hin : Query_kwargs (VStr Fixture.list_test_vertices_aql) sent 100
     ∈ issued Fixture.env Fixture.view_request_named_bind_var Fixture.fresh_world).
  { replace (issued Fixture.env Fixture.view_request_named_bind_var Fixture.fresh_world)
      with [Query_kwargs (VStr Fixture.list_test_vertices_aql) sent 100] by by_evaluation.
    apply list_elem_of_here. }
  split; [by split|].
  exact (bind_vars_frame Fixture.env Fixture.view_request_named_bind_var p
           Fixture.fresh_world _ _ _ Hp Hin).
Defined.

(** X9: template variables that are present and no JSON object end a view
    request in [TypeError] on line 40: after the view has been loaded and
    compiled, before it is rendered, and without a database call. *)
Theorem template_vars_not_mapping_TypeError {DB} (env : Env DB) (req : Request)
    (p : Prepared) (view_name view_str : string) (templ : Template) (v : value)
    (w : World DB) :
  prepared env req p ->
  p_body p !! "query" = None ->
  args_get (args req) "view" = Some view_name ->
  get_view env view_name = ok view_str ->
  from_string env view_str = ok templ ->
  p_body p !! "template_vars" = Some v ->
  (∀ d, v ≠ VDict d) ->
  run_query env req w = (inl TypeError, w).
Proof.
  intros Hp Hquery Hview Hsrc Htempl Hv Hnd. unfold ok in *.
  rewrite (run_query_prepared env req p w Hp). unfold dispatch.
  rewrite Hquery, Hview, bind_lift, Hsrc, bind_lift, Htempl, bind_lift, Hv.
  destruct v as [| | | | | |d]; try done. by destruct (Hnd d).
Qed.

Lemma template_vars_not_mapping_TypeError_witness :
  let p := {| p_body := <["template_vars" := VList [VInt 1]]> ∅; p_bind_vars := ∅;
              p_ids := [1; 2; 3]; p_batch_size := 100 |} in
  (prepared Fixture.env Fixture.list_template_vars_request p ∧
   get_view Fixture.env "list_test_vertices" = ok Fixture.list_test_vertices_aql ∧
   p_body p !! "template_vars" = Some (VList [VInt 1])) ∧
  run_query Fixture.env Fixture.list_template_vars_request Fixture.fresh_world
    = (inl TypeError, Fixture.fresh_world).
Proof.
  intros p.
  assert (Hp : prepared Fixture.env Fixture.list_template_vars_request p)
    by prepared_by_evaluation.
  split; [split; [exact Hp | split; by_evaluation]|].
  apply (template_vars_not_mapping_TypeError Fixture.env
           Fixture.list_template_vars_request p "list_test_vertices"
           Fixture.list_test_vertices_aql
           {| render := fun _ => ok Fixture.list_test_vertices_aql |} (VList [VInt 1]));
    [exact Hp | by_evaluation | reflexivity | by_evaluation | reflexivity
    | by_evaluation | discriminate].
Defined.

(** X10: a cursor continuation depends on the cursor id and on nothing else
    the caller sends: two requests for the same cursor that pass the
    preamble run alike, whatever their batch sizes, their other arguments,
    their tokens and their bodies (a [query] apart) are. *)
Theorem cursor_call_depends_on_cursor_id_only {DB} (env : Env DB)
    (req1 req2 : Request) (p1 p2 : Prepared) (cursor_id : string) (w : World DB) :
  prepared env req1 p1 ->
  prepared env req2 p2 ->
  p_body p1 !! "query" = None ->
  p_body p2 !! "query" = None ->
  args_get (args req1) "view" = None ->
  args_get (args req2) "view" = None ->
  args_get (args req1) "cursor_id" = Some cursor_id ->
  args_get (args req2) "cursor_id" = Some cursor_id ->
  run_query env req1 w = run_query env req2 w.
Proof.
  intros Hp1 Hp2 Hq1 Hq2 Hv1 Hv2 Hc1 Hc2.
  rewrite (run_query_prepared env req1 p1 w Hp1), (run_query_prepared env req2 p2 w Hp2).
  unfold dispatch. by rewrite Hq1, Hq2, Hv1, Hv2, Hc1, Hc2.
Qed.

Lemma cursor_call_depends_on_cursor_id_only_witness :
  let req1 := Fixture.cursor_request "0" None in
  let req2 := Fixture.cursor_with_batch_size in
  let p1 := {| p_body := ∅; p_bind_vars := ∅; p_ids := [1; 2; 3]; p_batch_size := 100 |} in
  let p2 := {| p_body := <["bind_vars" := VDict {[ "ws_ids" := VList [VInt 5] ]}]> ∅;
               p_bind_vars := {[ "ws_ids" := VList [VInt 5] ]};
               p_ids := [99]; p_batch_size := 7 |} in
  (prepared Fixture.env req1 p1 ∧ prepared Fixture.env req2 p2) ∧
  run_query Fixture.env req1 Fixture.world_after_first_page =
  run_query Fixture.env req2 Fixture.world_after_first_page.
Proof.
  intros req1 req2 p1 p2.
  assert (Hp1 : prepared Fixture.env req1 p1) by prepared_by_evaluation.
  assert (Hp2 : prepared Fixture.env req2 p2) by prepared_by_evaluation.
  split; [by split|].
  apply (cursor_call_depends_on_cursor_id_only Fixture.env req1 req2 p1 p2 "0"
           Fixture.world_after_first_page Hp1 Hp2); by_evaluation.
Defined.

(** X11: of the body the handler reads [query], [bind_vars] and
    [template_vars] and nothing else: two requests with the same arguments,
    the same resolved IDs and the same standing with the role check, whose
    bodies agree on these three keys, run alike. *)
Theorem unknown_body_keys_ignored {DB} (env : Env DB) (req req' : Request)
    (p p' : Prepared) (w : World DB) :
  prepared env req p ->
  prepared env req' p' ->
  args req' = args req ->
  p_ids p' = p_ids p ->
  require_auth_token env ["RE_ADMIN"%string] req' =
  require_auth_token env ["RE_ADMIN"%string] req ->
  p_body p' !! "query" = p_body p !! "query" ->
  p_bind_vars p' = p_bind_vars p ->
  p_body p' !! "template_vars" = p_body p !! "template_vars" ->
  run_query env req' w = run_query env req w.
Proof.
  intros Hp Hp' Hargs Hids Hrole Hquery Hbv Htv.
  assert (Hn : p_batch_size p' = p_batch_size p).
  { destruct Hp as [_ Hn], Hp' as [_ Hn']. unfold read_batch_size in *.
    rewrite Hargs, Hn in Hn'. by injection Hn'. }
  rewrite (run_query_prepared env req' p' w Hp'), (run_query_prepared env req p w Hp).
  unfold dispatch, effective_bind_vars.
  by rewrite Hquery, Hargs, Htv, Hids, Hbv, Hn, Hrole.
Qed.

Lemma unknown_body_keys_ignored_witness :
  let p := {| p_body := <["bind_vars" := VDict {[ "ws_ids" := VList [VInt 99] ]}]> ∅;
              p_bind_vars := {[ "ws_ids" := VList [VInt 99] ]};
              p_ids := [1; 2; 3]; p_batch_size := 2 |} in
  let p' := {| p_body := <["bind_vars" := VDict {[ "ws_ids" := VList [VInt 99] ]}]>
                         (<["collection" := VStr "test_vertex"]>
                         (<["limit" := VInt 1]> ∅));
               p_bind_vars := {[ "ws_ids" := VList [VInt 99] ]};
               p_ids := [1; 2; 3]; p_batch_size := 2 |} in
  (prepared Fixture.env Fixture.view_request p ∧
   prepared Fixture.env Fixture.view_request_extra_keys p') ∧
  run_query Fixture.env Fixture.view_request_extra_keys Fixture.fresh_world =
  run_query Fixture.env Fixture.view_request Fixture.fresh_world.
Proof.
  intros p p'.
  assert (Hp : prepared Fixture.env Fixture.view_request p) by prepared_by_evaluation.
  assert (Hp' : prepared Fixture.env Fixture.view_request_extra_keys p')
    by prepared_by_evaluation.
  split; [by split|].
  apply (unknown_body_keys_ignored Fixture.env Fixture.view_request
           Fixture.view_request_extra_keys p p' Fixture.fresh_world Hp Hp');
    by_evaluation.
Defined.
